(** * InAppBilling: the JavaScript facade of the Android billing plugin

    A shallow embedding of [www/android_iab.js] and the properties of its
    seven operations, its logger and its table of error codes.

    The facade is a marshalling shim: every operation normalises or checks
    its arguments, writes to the console, and hands a named action to
    [cordova.exec].  Its effects are therefore modelled as a list of
    observable events (console lines, calls of a caller's callback, bridge
    calls), produced by a small monad that also threads the instance
    ([this]) and the exceptions of the runtime, those of [JSON.stringify]
    among them. *)

From Stdlib Require Import ZArith List String Ascii Bool Lia DecimalString.
Import ListNotations.

Local Open Scope list_scope.
Local Open Scope string_scope.
Local Open Scope Z_scope.

Set Warnings "-register-all".

(** ** JavaScript values

    The values a caller can hand to the facade as data: the primitives,
    arrays, and plain objects holding own data properties (given in
    enumeration order, names distinct).  [VNum n] is the Number that the
    integer literal [n] denotes, that is [n] rounded to the nearest double;
    [VBigInt n] is the BigInt [n]; a string is a sequence of code units
    below 256.  [VCycle up], inside an array or an object, is that array
    or object itself ([up] = 0) or the one [up] levels further out: the
    way a cyclic structure is written down.  On its own, at the top of a
    value, it stands for nothing a caller can pass. *)

Inductive value : Type :=
| VUndefined
| VNull
| VBool (b : bool)
| VNum (n : Z)
| VBigInt (n : Z)
| VStr (s : string)
| VArr (elems : list value)
| VObj (props : list (string * value))
| VCycle (up : nat).

(** A function supplied by the caller.  The facade never looks inside one:
    it calls it or passes it to the bridge. *)
Inductive callback : Type :=
| Callback (id : nat).

(** How the evaluation of an expression or of a function body ends:
    normally with a result, by a thrown TypeError, or at an operation of the
    runtime that this development leaves out (see [greater_than_zero]). *)
Inductive completion (A : Type) : Type :=
| Normal (a : A)
| TypeError
| Unmodelled.

Arguments Normal {A} a.
Arguments TypeError {A}.
Arguments Unmodelled {A}.

(** The property names the facade reads: [x.showLog], [x.length], [x[0]]. *)
Inductive property : Type :=
| prop_showLog
| prop_length
| prop_0.

Definition property_name (p : property) : string :=
  match p with
  | prop_showLog => "showLog"
  | prop_length => "length"
  | prop_0 => "0"
  end.

(** [typeof v] *)
Definition typeof (v : value) : string :=
  match v with
  | VUndefined => "undefined"
  | VNull => "object"
  | VBool _ => "boolean"
  | VNum _ => "number"
  | VBigInt _ => "bigint"
  | VStr _ => "string"
  | VArr _ => "object"
  | VObj _ => "object"
  | VCycle _ => "object"
  end.

(** Truthiness, as used by [||], [!] and [if]. *)
Definition ToBoolean (v : value) : bool :=
  match v with
  | VUndefined => false
  | VNull => false
  | VBool b => b
  | VNum n => negb (n =? 0)
  | VBigInt n => negb (n =? 0)
  | VStr EmptyString => false
  | VStr (String _ _) => true
  | VArr _ => true
  | VObj _ => true
  | VCycle _ => true
  end.

(** An own data property of a plain object, [undefined] when there is none. *)
Fixpoint own_property (name : string) (props : list (string * value)) : value :=
  match props with
  | [] => VUndefined
  | (k, v) :: rest => if (k =? name)%string then v else own_property name rest
  end.

(** [v.p] for the three properties above.  Reading a property of
    [undefined] or [null] throws; a boolean, a number or a BigInt has none
    of the three; a string and an array have [length] and their elements.
    The facade reads properties of its arguments only, never of what is
    inside them, so a [VCycle] is never asked for one in a value that a
    caller can pass. *)
Definition Get (v : value) (p : property) : completion value :=
  match v with
  | VUndefined => TypeError
  | VNull => TypeError
  | VBool _ => Normal VUndefined
  | VNum _ => Normal VUndefined
  | VBigInt _ => Normal VUndefined
  | VStr s =>
      match p with
      | prop_showLog => Normal VUndefined
      | prop_length => Normal (VNum (Z.of_nat (String.length s)))
      | prop_0 =>
          match s with
          | EmptyString => Normal VUndefined
          | String c _ => Normal (VStr (String c EmptyString))
          end
      end
  | VArr elems =>
      match p with
      | prop_showLog => Normal VUndefined
      | prop_length => Normal (VNum (Z.of_nat (List.length elems)))
      | prop_0 => Normal (hd VUndefined elems)
      end
  | VObj props => Normal (own_property (property_name p) props)
  | VCycle _ => Normal VUndefined
  end.

(** [v > 0].  The operand is converted to a number: [undefined] to NaN,
    [null] to 0, [true] to 1; a BigInt is compared by its value.  The
    conversion of a string, an array or an object goes through the
    runtime's parser of numeric literals and its floating-point rounding,
    which this development leaves out: the facade meets such an operand
    only as the [length] property of an object given as [productIds]. *)
Definition greater_than_zero (v : value) : completion bool :=
  match v with
  | VUndefined => Normal false
  | VNull => Normal false
  | VBool b => Normal b
  | VNum n => Normal (0 <? n)
  | VBigInt n => Normal (0 <? n)
  | VStr _ => Unmodelled
  | VArr _ => Unmodelled
  | VObj _ => Unmodelled
  | VCycle _ => Unmodelled
  end.

(** ** [JSON.stringify] on these values *)

Module JSON.

Definition hex_digit (n : nat) : ascii :=
  nth n (list_ascii_of_string "0123456789abcdef") "0"%char.

(** One code unit inside a JSON string literal. *)
Definition escape_char (c : ascii) : string :=
  let n := nat_of_ascii c in
  if Nat.eqb n 8 then "\b"
  else if Nat.eqb n 9 then "\t"
  else if Nat.eqb n 10 then "\n"
  else if Nat.eqb n 12 then "\f"
  else if Nat.eqb n 13 then "\r"
  else if Nat.eqb n 34 then String (ascii_of_nat 92) (String (ascii_of_nat 34) EmptyString)
  else if Nat.eqb n 92 then "\\"
  else if Nat.ltb n 32 then
    "\u00" ++ String (hex_digit (Nat.div n 16)) (String (hex_digit (Nat.modulo n 16)) EmptyString)
  else String c EmptyString.

Fixpoint escape (s : string) : string :=
  match s with
  | EmptyString => EmptyString
  | String c rest => escape_char c ++ escape rest
  end.

Definition dquote : string := String (ascii_of_nat 34) EmptyString.

Definition quote (s : string) : string := dquote ++ escape s ++ dquote.

(** *** Numbers

    [JSON.stringify] writes a finite Number as [Number::toString] does:
    with the fewest digits that still denote that Number, plainly up to
    21 digits and with an exponent beyond; an infinite one as [null]. *)

(** The double nearest to the integer [n > 0], ties to the even mantissa;
    [None] when [n] rounds to Infinity. *)
Definition round_to_double (n : Z) : option Z :=
  let bits := Z.log2 n + 1 in
  if bits <=? 53 then Some n
  else
    let q := bits - 53 in
    let m := n / 2 ^ q in
    let r := n mod 2 ^ q in
    let half := 2 ^ (q - 1) in
    let m' := if (half <? r) || ((r =? half) && Z.odd m) then m + 1 else m in
    let x := m' * 2 ^ q in
    if 2 ^ 1024 <=? x then None else Some x.

(** Whether the integer [c] rounds to the double [x > 0], an integer of
    more than 53 bits: [c] lies within half a step of [x], the ends of the
    range counting when the mantissa of [x] is even.  Just below a power
    of two the steps are half as wide. *)
Definition rounds_to (x c : Z) : bool :=
  let bits := Z.log2 x + 1 in
  let step := 2 ^ (bits - 53) in
  let below := if x =? 2 ^ (bits - 1) then step / 2 else step in
  let lo := 2 * x - below in
  let hi := 2 * x + step in
  (0 <? c) &&
  (if Z.even (x / step) then (lo <=? 2 * c) && (2 * c <=? hi)
   else (lo <? 2 * c) && (2 * c <? hi)).

(** The multiple of a power of ten, the highest power first, that rounds
    to [x]: of the two multiples around [x] the nearer one, and of two
    equally near the one whose digits end even. *)
Fixpoint shortest_from (j : nat) (x : Z) : Z :=
  match j with
  | O => x
  | S j' =>
      let p := 10 ^ Z.of_nat j in
      let c1 := (x / p) * p in
      let c2 := c1 + p in
      match rounds_to x c1, rounds_to x c2 with
      | true, true =>
          if x - c1 <? c2 - x then c1
          else if c2 - x <? x - c1 then c2
          else if Z.even (c1 / p) then c1 else c2
      | true, false => c1
      | false, true => c2
      | false, false => shortest_from j' x
      end
  end.

Definition digits (n : Z) : string := NilZero.string_of_uint (N.to_uint (Z.to_N n)).

(** The integer with the fewest significant digits that denotes the
    double [x > 0]. *)
Definition shortest (x : Z) : Z :=
  if Z.log2 x + 1 <=? 53 then x
  else shortest_from (String.length (digits x)) x.

Fixpoint strip_zeros_rev (s : list ascii) : list ascii :=
  match s with
  | c :: rest => if Ascii.eqb c "0" then strip_zeros_rev rest else s
  | [] => []
  end.

(** A digit string without its trailing zeros. *)
Definition strip_zeros (s : string) : string :=
  string_of_list_ascii (rev (strip_zeros_rev (rev (list_ascii_of_string s)))).

(** The text of a positive double given by the digits [ds] of [shortest]:
    as it is up to 21 digits, else [d.ddde+n]. *)
Definition positive_to_string (ds : string) : string :=
  if Nat.leb (String.length ds) 21 then ds
  else
    match strip_zeros ds with
    | EmptyString => ds
    | String d EmptyString =>
        String d ("e+" ++ digits (Z.of_nat (String.length ds) - 1))
    | String d more =>
        String d ("." ++ more ++ "e+" ++ digits (Z.of_nat (String.length ds) - 1))
    end.

(** [JSON.stringify(n)] for the Number [VNum n]. *)
Definition number_to_string (n : Z) : string :=
  if n =? 0 then "0"
  else
    match round_to_double (Z.abs n) with
    | None => "null"
    | Some x =>
        (if n <? 0 then "-" else EmptyString) ++ positive_to_string (digits (shortest x))
    end.

Fixpoint join (sep : string) (parts : list string) : string :=
  match parts with
  | [] => EmptyString
  | [p] => p
  | p :: rest => p ++ sep ++ join sep rest
  end.

(** The results of a sequence of evaluations, up to the first that throws. *)
Fixpoint sequence {A : Type} (cs : list (completion A)) : completion (list A) :=
  match cs with
  | [] => Normal []
  | Normal a :: rest =>
      match sequence rest with
      | Normal l => Normal (a :: l)
      | TypeError => TypeError
      | Unmodelled => Unmodelled
      end
  | TypeError :: _ => TypeError
  | Unmodelled :: _ => Unmodelled
  end.

(** An element of an array: [undefined] is written [null]. *)
Definition element (x : option string) : string :=
  match x with
  | Some s => s
  | None => "null"
  end.

(** The members of an object: a property whose value is [undefined] is
    left out. *)
Fixpoint members (ps : list (string * option string)) : list string :=
  match ps with
  | [] => []
  | (k, Some s) :: rest => (quote k ++ ":" ++ s) :: members rest
  | (_, None) :: rest => members rest
  end.

(** [JSON.stringify(v)]: the text, [None] where the result is
    [undefined], and a TypeError as soon as there is a BigInt to write or
    the structure turns out to be cyclic. *)
Fixpoint stringify (v : value) : completion (option string) :=
  match v with
  | VUndefined => Normal None
  | VNull => Normal (Some "null")
  | VBool true => Normal (Some "true")
  | VBool false => Normal (Some "false")
  | VNum n => Normal (Some (number_to_string n))
  | VBigInt _ => TypeError
  | VStr s => Normal (Some (quote s))
  | VArr elems =>
      match sequence (map stringify elems) with
      | Normal texts => Normal (Some ("[" ++ join "," (map element texts) ++ "]"))
      | TypeError => TypeError
      | Unmodelled => Unmodelled
      end
  | VObj props =>
      let property (p : string * value) : completion (string * option string) :=
        let (k, e) := p in
        match stringify e with
        | Normal x => Normal (k, x)
        | TypeError => TypeError
        | Unmodelled => Unmodelled
        end in
      match sequence (map property props) with
      | Normal texts => Normal (Some ("{" ++ join "," (members texts) ++ "}"))
      | TypeError => TypeError
      | Unmodelled => Unmodelled
      end
  | VCycle _ => TypeError
  end.

End JSON.

(** [s + x] for a string [s] and the result [x] of [JSON.stringify]. *)
Definition concat_stringified (s : string) (x : option string) : string :=
  match x with
  | Some t => s ++ t
  | None => s ++ "undefined"
  end.

(** ** The instance, its effects, and the monad of method bodies *)

(** What can be observed of a call of a method: a line written by
    [console.log], a call [f(arg)] of a caller's callback, a call of
    [cordova.exec] with its five arguments.  What the callback or the
    native side does in turn is theirs, not the facade's. *)
Inductive event : Type :=
| ConsoleLog (line : string)
| Invoke (f : callback) (arg : value)
| CordovaExec (success fail : callback) (service action : string) (args : list value).

(** An instance made by [new InAppBilling()]: its [options] property, and
    whether an own [log] property (the empty function that [init] installs)
    hides [InAppBilling.prototype.log]. *)
Record instance : Type := {
  options : value;
  log_replaced : bool
}.

(** [var InAppBilling = function() { this.options = {}; }] *)
Definition InAppBilling : instance :=
  {| options := VObj []; log_replaced := false |}.

(** What a method hands back: nothing, or whatever [cordova.exec] returned. *)
Inductive returned : Type :=
| Nothing
| ResultOfExec.

(** A method body: from the instance it is called on to its completion,
    the instance afterwards and the events it produced. *)
Definition M (A : Type) : Type := instance -> completion A * instance * list event.

Definition ret {A : Type} (a : A) : M A :=
  fun this => (Normal a, this, []).

Definition bind {A B : Type} (m : M A) (k : A -> M B) : M B :=
  fun this =>
    match m this with
    | (Normal a, this', out) =>
        match k a this' with
        | (r, this'', out') => (r, this'', (out ++ out')%list)
        end
    | (TypeError, this', out) => (TypeError, this', out)
    | (Unmodelled, this', out) => (Unmodelled, this', out)
    end.

Notation "x <- m ;; k" := (bind m (fun x => k))
  (at level 61, m at next level, right associativity).
Notation "m ;; k" := (bind m (fun _ => k))
  (at level 61, right associativity).

Definition eval {A : Type} (c : completion A) : M A :=
  fun this => (c, this, []).

Definition emit (e : event) : M unit :=
  fun this => (Normal tt, this, [e]).

Definition this_options : M value :=
  fun this => (Normal (options this), this, []).

Definition set_options (v : value) : M unit :=
  fun this => (Normal tt, {| options := v; log_replaced := log_replaced this |}, []).

(** [this.log = function() {};] *)
Definition replace_log : M unit :=
  fun this => (Normal tt, {| options := options this; log_replaced := true |}, []).

Module console.

(** [console.log(line)] *)
Definition log (line : string) : M unit := emit (ConsoleLog line).

End console.

Module cordova.

(** [cordova.exec(success, fail, service, action, args)], whose result the
    methods return as it is. *)
Definition exec (success fail : callback) (service action : string)
    (args : list value) : M returned :=
  emit (CordovaExec success fail service action args) ;; ret ResultOfExec.

End cordova.

(** The three projections of a run. *)
Definition outcome {A : Type} (r : completion A * instance * list event) : completion A :=
  fst (fst r).
Definition after {A : Type} (r : completion A * instance * list event) : instance :=
  snd (fst r).
Definition events {A : Type} (r : completion A * instance * list event) : list event :=
  snd r.

(** The bridge calls, the callback calls and the console lines among events. *)
Definition is_bridge_call (e : event) : bool :=
  match e with CordovaExec _ _ _ _ _ => true | _ => false end.
Definition is_callback_call (e : event) : bool :=
  match e with Invoke _ _ => true | _ => false end.
Definition is_console_line (e : event) : bool :=
  match e with ConsoleLog _ => true | _ => false end.

Definition bridge_calls (out : list event) : list event := filter is_bridge_call out.
Definition callback_calls (out : list event) : list event := filter is_callback_call out.
Definition console_lines (out : list event) : list event := filter is_console_line out.

(** ** Error codes *)

Definition ERROR_CODES_BASE : Z := 4983497.

Definition ERR_SETUP : Z := ERROR_CODES_BASE + 1.
Definition ERR_LOAD : Z := ERROR_CODES_BASE + 2.
Definition ERR_PURCHASE : Z := ERROR_CODES_BASE + 3.
Definition ERR_LOAD_RECEIPTS : Z := ERROR_CODES_BASE + 4.
Definition ERR_CLIENT_INVALID : Z := ERROR_CODES_BASE + 5.
Definition ERR_PAYMENT_CANCELLED : Z := ERROR_CODES_BASE + 6.
Definition ERR_PAYMENT_INVALID : Z := ERROR_CODES_BASE + 7.
Definition ERR_PAYMENT_NOT_ALLOWED : Z := ERROR_CODES_BASE + 8.
Definition ERR_UNKNOWN : Z := ERROR_CODES_BASE + 10.
Definition ERR_LOAD_INVENTORY : Z := ERROR_CODES_BASE + 11.
Definition ERR_HELPER_DISPOSED : Z := ERROR_CODES_BASE + 12.
Definition ERR_NOT_INITIALIZED : Z := ERROR_CODES_BASE + 13.
Definition ERR_INVENTORY_NOT_LOADED : Z := ERROR_CODES_BASE + 14.
Definition ERR_PURCHASE_FAILED : Z := ERROR_CODES_BASE + 15.
Definition ERR_JSON_CONVERSION_FAILED : Z := ERROR_CODES_BASE + 16.
Definition ERR_INVALID_PURCHASE_PAYLOAD : Z := ERROR_CODES_BASE + 17.
Definition ERR_SUBSCRIPTION_NOT_SUPPORTED : Z := ERROR_CODES_BASE + 18.
Definition ERR_CONSUME_NOT_OWNED_ITEM : Z := ERROR_CODES_BASE + 19.
Definition ERR_CONSUMPTION_FAILED : Z := ERROR_CODES_BASE + 20.

(** The nineteen codes, in the order the file defines them. *)
Definition error_codes : list Z :=
  [ ERR_SETUP; ERR_LOAD; ERR_PURCHASE; ERR_LOAD_RECEIPTS; ERR_CLIENT_INVALID;
    ERR_PAYMENT_CANCELLED; ERR_PAYMENT_INVALID; ERR_PAYMENT_NOT_ALLOWED;
    ERR_UNKNOWN; ERR_LOAD_INVENTORY; ERR_HELPER_DISPOSED; ERR_NOT_INITIALIZED;
    ERR_INVENTORY_NOT_LOADED; ERR_PURCHASE_FAILED; ERR_JSON_CONVERSION_FAILED;
    ERR_INVALID_PURCHASE_PAYLOAD; ERR_SUBSCRIPTION_NOT_SUPPORTED;
    ERR_CONSUME_NOT_OWNED_ITEM; ERR_CONSUMPTION_FAILED ].

(** ** The methods *)

(** [this.log(msg)]: the own property when [init] installed one, else
    [InAppBilling.prototype.log], which prints the line with its prefix. *)
Definition log (msg : string) : M unit :=
  fun this =>
    if log_replaced this then ret tt this
    else console.log ("InAppBilling[js]: " ++ msg) this.

(** [if (typeof productIds === "string") { productIds = [productIds]; }] *)
Definition normalize (productIds : value) : value :=
  if (typeof productIds =? "string")%string then VArr [productIds] else productIds.

(** How the block of [init] that looks at [productIds] ends: by [return],
    or by falling through with the variables it assigned. *)
Inductive block_end : Type :=
| Return (r : returned)
| Fallthrough (productIds : value) (hasProductIds : bool).

(** [InAppBilling.prototype.init].  An argument the caller leaves out is
    [undefined]; [success] and [fail] are functions. *)
Definition init (success fail : callback) (options productIds : value) : M returned :=
  (* options || (options = {}); *)
  let options := if ToBoolean options then options else VObj [] in
  (* this.options = { showLog: options.showLog || true }; *)
  requested <- eval (Get options prop_showLog) ;;
  set_options
    (VObj [("showLog", if ToBoolean requested then requested else VBool true)]) ;;
  (* if (!this.options.showLog) { this.log = function() {}; } *)
  current <- this_options ;;
  flag <- eval (Get current prop_showLog) ;;
  (if negb (ToBoolean flag) then replace_log else ret tt) ;;
  log "setup ok" ;;
  (* var hasProductIds = false; if (typeof productIds !== "undefined") ... *)
  e <- (if negb (typeof productIds =? "undefined")%string then
          let productIds := normalize productIds in
          (* if (productIds.length > 0) *)
          len <- eval (Get productIds prop_length) ;;
          nonempty <- eval (greater_than_zero len) ;;
          if nonempty then
            head <- eval (Get productIds prop_0) ;;
            if negb (typeof head =? "string")%string then
              (* var msg = 'invalid productIds: ' + JSON.stringify(productIds); *)
              text <- eval (JSON.stringify productIds) ;;
              let msg := concat_stringified "invalid productIds: " text in
              log msg ;;
              emit (Invoke fail (VStr msg)) ;;
              ret (Return Nothing)
            else
              (* this.log('load ' + JSON.stringify(productIds)); *)
              text <- eval (JSON.stringify productIds) ;;
              log (concat_stringified "load " text) ;;
              ret (Fallthrough productIds true)
          else ret (Fallthrough productIds false)
        else ret (Fallthrough productIds false)) ;;
  match e with
  | Return r => ret r
  | Fallthrough productIds hasProductIds =>
      if hasProductIds then
        cordova.exec success fail "InAppBillingPlugin" "init" [productIds]
      else
        cordova.exec success fail "InAppBillingPlugin" "init" []
  end.

(** [InAppBilling.prototype.getPurchases] *)
Definition getPurchases (success fail : callback) : M returned :=
  log "getPurchases called!" ;;
  cordova.exec success fail "InAppBillingPlugin" "getPurchases" [VStr "null"].

(** [InAppBilling.prototype.buy] *)
Definition buy (success fail : callback) (productId : value) : M returned :=
  log "buy called!" ;;
  cordova.exec success fail "InAppBillingPlugin" "buy" [productId].

(** [InAppBilling.prototype.subscribe] *)
Definition subscribe (success fail : callback) (productId : value) : M returned :=
  log "subscribe called!" ;;
  cordova.exec success fail "InAppBillingPlugin" "subscribe" [productId].

(** [InAppBilling.prototype.consumePurchase] *)
Definition consumePurchase (success fail : callback) (productId : value) : M returned :=
  log "consumePurchase called!" ;;
  cordova.exec success fail "InAppBillingPlugin" "consumePurchase" [productId].

(** [InAppBilling.prototype.getAvailableProducts] *)
Definition getAvailableProducts (success fail : callback) : M returned :=
  log "getAvailableProducts called!" ;;
  cordova.exec success fail "InAppBillingPlugin" "getAvailableProducts" [VStr "null"].

(** [InAppBilling.prototype.getProductDetails] *)
Definition getProductDetails (success fail : callback) (productIds : value) : M returned :=
  log "getProductDetails called!" ;;
  let productIds := normalize productIds in
  (* if (!productIds.length) *)
  len <- eval (Get productIds prop_length) ;;
  if negb (ToBoolean len) then
    ret Nothing
  else
    head <- eval (Get productIds prop_0) ;;
    if negb (typeof head =? "string")%string then
      text <- eval (JSON.stringify productIds) ;;
      let msg := concat_stringified "invalid productIds: " text in
      log msg ;;
      emit (Invoke fail (VStr msg)) ;;
      ret Nothing
    else
      text <- eval (JSON.stringify productIds) ;;
      log (concat_stringified "load " text) ;;
      cordova.exec success fail "InAppBillingPlugin" "getProductDetails" [productIds].

(** ** The exported instance and its callers

    [module.exports = new InAppBilling();]: the application gets one
    instance and calls its methods on it, one call after the other. *)

(** A call of one of the seven operations, with its arguments. *)
Inductive call : Type :=
| call_init (success fail : callback) (options productIds : value)
| call_getPurchases (success fail : callback)
| call_buy (success fail : callback) (productId : value)
| call_subscribe (success fail : callback) (productId : value)
| call_consumePurchase (success fail : callback) (productId : value)
| call_getAvailableProducts (success fail : callback)
| call_getProductDetails (success fail : callback) (productIds : value).

Definition perform (c : call) : M returned :=
  match c with
  | call_init success fail options productIds => init success fail options productIds
  | call_getPurchases success fail => getPurchases success fail
  | call_buy success fail productId => buy success fail productId
  | call_subscribe success fail productId => subscribe success fail productId
  | call_consumePurchase success fail productId => consumePurchase success fail productId
  | call_getAvailableProducts success fail => getAvailableProducts success fail
  | call_getProductDetails success fail productIds =>
      getProductDetails success fail productIds
  end.

(** The calls of a session, each on the instance the one before left; a
    call that throws leaves the instance as it was when it threw, and the
    application goes on with the next call. *)
Fixpoint session (calls : list call) (this : instance) : instance * list event :=
  match calls with
  | [] => (this, [])
  | c :: rest =>
      let r := perform c this in
      let (this', out) := session rest (after r) in
      (this', (events r ++ out)%list)
  end.

(** The argument list of a bridge call. *)
Definition arguments_of (e : event) : list value :=
  match e with
  | CordovaExec _ _ _ _ args => args
  | _ => []
  end.

(** Whether a property value is [showLog: v] with [v] truthy. *)
Definition truthy_showLog (opts : value) : bool :=
  match opts with
  | VObj [(name, v)] => (name =? "showLog")%string && ToBoolean v
  | _ => false
  end.

(** The two callbacks a call was given. *)
Definition success_of (c : call) : callback :=
  match c with
  | call_init success _ _ _ => success
  | call_getPurchases success _ => success
  | call_buy success _ _ => success
  | call_subscribe success _ _ => success
  | call_consumePurchase success _ _ => success
  | call_getAvailableProducts success _ => success
  | call_getProductDetails success _ _ => success
  end.

Definition fail_of (c : call) : callback :=
  match c with
  | call_init _ fail _ _ => fail
  | call_getPurchases _ fail => fail
  | call_buy _ fail _ => fail
  | call_subscribe _ fail _ => fail
  | call_consumePurchase _ fail _ => fail
  | call_getAvailableProducts _ fail => fail
  | call_getProductDetails _ fail _ => fail
  end.

(** The message of the first [this.log] of each operation. *)
Definition announcement (c : call) : string :=
  match c with
  | call_init _ _ _ _ => "setup ok"
  | call_getPurchases _ _ => "getPurchases called!"
  | call_buy _ _ _ => "buy called!"
  | call_subscribe _ _ _ => "subscribe called!"
  | call_consumePurchase _ _ _ => "consumePurchase called!"
  | call_getAvailableProducts _ _ => "getAvailableProducts called!"
  | call_getProductDetails _ _ _ => "getProductDetails called!"
  end.

(** A console line of the facade carries the prefix of its logger; the other
    events are not console lines. *)
Definition prefixed (e : event) : bool :=
  match e with
  | ConsoleLog line => String.prefix "InAppBilling[js]: " line
  | _ => true
  end.

(** The events of a call that keeps to the protocol of the facade: first
    the console lines, then at most one answer, which is either a bridge
    call to "InAppBillingPlugin" carrying the two callbacks of the caller,
    or a call of the caller's [fail] with a string. *)
Definition disciplined (success fail : callback) (out : list event) : Prop :=
  out = (console_lines out ++ bridge_calls out ++ callback_calls out)%list /\
  (List.length (bridge_calls out) + List.length (callback_calls out) <= 1)%nat /\
  Forall (fun e => exists action args,
            e = CordovaExec success fail "InAppBillingPlugin" action args)
         (bridge_calls out) /\
  Forall (fun e => exists msg, e = Invoke fail (VStr msg)) (callback_calls out).

(** [productIds] is not an object whose [length] property holds a string,
    an array or an object: the inputs for which [productIds.length > 0] is
    within what [greater_than_zero] covers. *)
Definition plain_length (productIds : value) : bool :=
  match productIds with
  | VObj props =>
      match own_property "length" props with
      | VStr _ => false
      | VArr _ => false
      | VObj _ => false
      | VCycle _ => false
      | _ => true
      end
  | _ => true
  end.

(** The calls whose arguments are within what the model covers: every
    call but an [init] given such an object. *)
Definition within_model (c : call) : bool :=
  match c with
  | call_init _ _ _ productIds => plain_length productIds
  | _ => true
  end.

(** [JSON.stringify(v)] returns, with a text or with [undefined]. *)
Definition serialises (v : value) : Prop :=
  exists text, JSON.stringify v = Normal text.

(** * Properties *)

(** ** The runtime helpers *)

(** The value [init] reads as [options.showLog] once it has replaced a falsy
    [options] by the empty object. *)
Definition requested_showLog (o : value) : value :=
  match o with
  | VObj props => own_property "showLog" props
  | _ => VUndefined
  end.

Lemma Get_requested (o : value) :
  Get (if ToBoolean o then o else VObj []) prop_showLog = Normal (requested_showLog o).
Proof.
  destruct o as [ | | b | n | n | s | elems | props | up ]; simpl; try reflexivity.
  - destruct b; reflexivity.
  - destruct (n =? 0); reflexivity.
  - destruct (n =? 0); reflexivity.
  - destruct s; reflexivity.
Qed.

(** [x || true] is truthy whatever [x] is. *)
Lemma or_true_truthy (v : value) :
  ToBoolean (if ToBoolean v then v else VBool true) = true.
Proof.
  destruct (ToBoolean v) eqn:E; [ exact E | reflexivity ].
Qed.

(** When the serialisation of an array returns, it returns a text. *)
Lemma JSON_stringify_array (elems : list value) (x : option string) :
  JSON.stringify (VArr elems) = Normal x -> exists s, x = Some s.
Proof.
  simpl. destruct (JSON.sequence (map JSON.stringify elems)); intros H;
    inversion H; eauto.
Qed.

(** The array holding one string is written as that string, quoted, in
    brackets. *)
Lemma JSON_stringify_string (s : string) :
  JSON.stringify (VArr [VStr s]) = Normal (Some ("[" ++ JSON.quote s ++ "]")).
Proof.
  reflexivity.
Qed.



(** What [normalize] leaves as an array was a string or that array. *)
Lemma normalize_array (productIds : value) (elems : list value) :
  normalize productIds = VArr elems ->
  (exists s, productIds = VStr s /\ elems = [VStr s]) \/ productIds = VArr elems.
Proof.
  destruct productIds; unfold normalize; simpl; intros H;
    try discriminate H; [ left | right ]; inversion H; eauto.
Qed.

Arguments JSON.stringify : simpl never.

Ltac unfold_monad :=
  unfold bind, eval, set_options, this_options, replace_log, ret, emit, log,
    console.log, cordova.exec.

(** Runs a method body as far as it computes, splitting on whether the
    instance still has the logger of the prototype. *)
Ltac run this :=
  unfold init, getProductDetails, getPurchases, getAvailableProducts, buy,
    subscribe, consumePurchase, outcome, after, events;
  unfold_monad; cbv beta zeta;
  rewrite ?Get_requested; cbn; rewrite ?or_true_truthy; cbn;
  rewrite ?JSON_stringify_string; cbn;
  let L := fresh "L" in
  destruct (log_replaced this) eqn:L; cbn; repeat (rewrite L; cbn).

(** Computes a run through every case of its arguments, splitting on
    whatever still blocks it: a property of an unknown object, the kind of
    an unknown value, an unknown list, the result of a serialisation. *)
Ltac explore :=
  repeat first
    [ progress cbn
    | match goal with
      | H : log_replaced ?t = _ |- context [ log_replaced ?t ] => rewrite H
      end
    | match goal with
      | |- context [ own_property ?n ?ps ] => is_var ps; destruct (own_property n ps)
      | |- context [ (typeof ?v =? _)%string ] => is_var v; destruct v
      | |- context [ 0 <? ?n ] => is_var n; destruct (0 <? n)
      | |- context [ negb (?n =? 0) ] => is_var n; destruct (n =? 0)
      | |- context [ if ?b then _ else _ ] => is_var b; destruct b
      | |- context [ if negb ?b then _ else _ ] => is_var b; destruct b
      | |- context [ hd _ ?l ] => is_var l; destruct l
      | |- context [ List.length ?l ] => is_var l; destruct l
      | |- context [ match JSON.stringify ?v with _ => _ end ] =>
          destruct (JSON.stringify v) as [ [ ? | ] | | ]
      end ].

(** Runs a method on every kind of value for [v]. *)
Ltac run_on this v :=
  run this; destruct v as [ | | ? | ? | ? | ? | ? | ? | ? ]; explore.

(** ** The logger *)

(** [init] never installs the empty logger: [options.showLog || true] is
    truthy for every [options], so the guard of the replacement is false. *)
Lemma init_keeps_log (success fail : callback) (opts productIds : value)
    (this : instance) :
  log_replaced (after (init success fail opts productIds this)) = log_replaced this.
Proof.
  run_on this productIds; reflexivity.
Qed.

(** C1, as the code has it: a call of [init] with [{showLog: false}]
    stores [showLog: true], keeps the logger of the prototype and prints
    "setup ok", and a later [buy] on that instance prints its line too:
    the claim's silence after [showLog: false] does not hold. *)
Theorem init_showLog_false_still_logs (success fail : callback) :
  let r := init success fail (VObj [("showLog", VBool false)]) VUndefined InAppBilling in
  outcome r = Normal ResultOfExec /\
  after r = {| options := VObj [("showLog", VBool true)]; log_replaced := false |} /\
  events r =
    [ ConsoleLog "InAppBilling[js]: setup ok";
      CordovaExec success fail "InAppBillingPlugin" "init" [] ] /\
  events (buy success fail (VStr "sku1") (after r)) =
    [ ConsoleLog "InAppBilling[js]: buy called!";
      CordovaExec success fail "InAppBillingPlugin" "buy" [VStr "sku1"] ].
Proof.
  cbv zeta. repeat split.
Qed.

(** ** Error codes *)

(** C5: every code is the base 4983497 plus its offset, 1 to 20 without 9,
    and the nineteen codes are pairwise different. *)
Theorem error_codes_offsets :
  ERROR_CODES_BASE = 4983497 /\
  ERR_SETUP = 4983497 + 1 /\
  ERR_LOAD = 4983497 + 2 /\
  ERR_PURCHASE = 4983497 + 3 /\
  ERR_LOAD_RECEIPTS = 4983497 + 4 /\
  ERR_CLIENT_INVALID = 4983497 + 5 /\
  ERR_PAYMENT_CANCELLED = 4983497 + 6 /\
  ERR_PAYMENT_INVALID = 4983497 + 7 /\
  ERR_PAYMENT_NOT_ALLOWED = 4983497 + 8 /\
  ERR_UNKNOWN = 4983497 + 10 /\
  ERR_LOAD_INVENTORY = 4983497 + 11 /\
  ERR_HELPER_DISPOSED = 4983497 + 12 /\
  ERR_NOT_INITIALIZED = 4983497 + 13 /\
  ERR_INVENTORY_NOT_LOADED = 4983497 + 14 /\
  ERR_PURCHASE_FAILED = 4983497 + 15 /\
  ERR_JSON_CONVERSION_FAILED = 4983497 + 16 /\
  ERR_INVALID_PURCHASE_PAYLOAD = 4983497 + 17 /\
  ERR_SUBSCRIPTION_NOT_SUPPORTED = 4983497 + 18 /\
  ERR_CONSUME_NOT_OWNED_ITEM = 4983497 + 19 /\
  ERR_CONSUMPTION_FAILED = 4983497 + 20 /\
  List.length error_codes = 19%nat /\
  NoDup error_codes /\
  ~ In (ERROR_CODES_BASE + 9) error_codes.
Proof.
  repeat (split; [ reflexivity | ]).
  split.
  - unfold error_codes.
    repeat (constructor; [ cbv; intuition discriminate | ]).
    constructor.
  - cbv. intuition discriminate.
Qed.

(** ** The operations that only forward *)

(** C7: for every [productId], of whatever kind, [buy], [subscribe] and
    [consumePurchase] return normally after exactly one bridge call, to
    "InAppBillingPlugin", under their own action name, with the argument
    list [[productId]] and the caller's two callbacks; they call no
    callback themselves, and apart from the line of the logger the bridge
    call is all they do. *)
Theorem purchase_operations_forward (success fail : callback) (productId : value)
    (this : instance) :
  (outcome (buy success fail productId this) = Normal ResultOfExec /\
   events (buy success fail productId this) =
     (events (log "buy called!" this) ++
      [CordovaExec success fail "InAppBillingPlugin" "buy" [productId]])%list /\
   bridge_calls (events (buy success fail productId this)) =
     [CordovaExec success fail "InAppBillingPlugin" "buy" [productId]] /\
   callback_calls (events (buy success fail productId this)) = []) /\
  (outcome (subscribe success fail productId this) = Normal ResultOfExec /\
   events (subscribe success fail productId this) =
     (events (log "subscribe called!" this) ++
      [CordovaExec success fail "InAppBillingPlugin" "subscribe" [productId]])%list /\
   bridge_calls (events (subscribe success fail productId this)) =
     [CordovaExec success fail "InAppBillingPlugin" "subscribe" [productId]] /\
   callback_calls (events (subscribe success fail productId this)) = []) /\
  (outcome (consumePurchase success fail productId this) = Normal ResultOfExec /\
   events (consumePurchase success fail productId this) =
     (events (log "consumePurchase called!" this) ++
      [CordovaExec success fail "InAppBillingPlugin" "consumePurchase" [productId]])%list /\
   bridge_calls (events (consumePurchase success fail productId this)) =
     [CordovaExec success fail "InAppBillingPlugin" "consumePurchase" [productId]] /\
   callback_calls (events (consumePurchase success fail productId this)) = []).
Proof.
  run this; repeat split; reflexivity.
Qed.

(** C8: [getPurchases] and [getAvailableProducts] take the two callbacks
    only, and each returns normally after exactly one bridge call, under
    its own action name, whose argument list is the one-element list
    holding the literal string "null"; they call no callback themselves. *)
Theorem query_operations_forward (success fail : callback) (this : instance) :
  (outcome (getPurchases success fail this) = Normal ResultOfExec /\
   events (getPurchases success fail this) =
     (events (log "getPurchases called!" this) ++
      [CordovaExec success fail "InAppBillingPlugin" "getPurchases" [VStr "null"]])%list /\
   bridge_calls (events (getPurchases success fail this)) =
     [CordovaExec success fail "InAppBillingPlugin" "getPurchases" [VStr "null"]] /\
   callback_calls (events (getPurchases success fail this)) = []) /\
  (outcome (getAvailableProducts success fail this) = Normal ResultOfExec /\
   events (getAvailableProducts success fail this) =
     (events (log "getAvailableProducts called!" this) ++
      [CordovaExec success fail "InAppBillingPlugin" "getAvailableProducts"
         [VStr "null"]])%list /\
   bridge_calls (events (getAvailableProducts success fail this)) =
     [CordovaExec success fail "InAppBillingPlugin" "getAvailableProducts"
        [VStr "null"]] /\
   callback_calls (events (getAvailableProducts success fail this)) = []).
Proof.
  run this; repeat split; reflexivity.
Qed.

(** ** Product identifiers: normalisation and validation *)

(** [whole] has [part] as a substring. *)
Definition contains (whole part : string) : Prop :=
  exists before behind, whole = before ++ part ++ behind.

Lemma contains_suffix (before part : string) : contains (before ++ part) part.
Proof.
  exists before, EmptyString.
  assert (E : part ++ EmptyString = part).
  { induction part as [ | c part IH ]; simpl; [ | rewrite IH ]; reflexivity. }
  rewrite E. reflexivity.
Qed.

(** C4: a bare string is replaced by the array holding just that string,
    and from there on [init] and [getProductDetails] cannot tell the two
    apart: outcome, instance and events of the call are the same as for
    the one-element array.  What passes the check and reaches the bridge is
    the array, never the string. *)
Theorem bare_string_is_one_element_array (success fail : callback) (opts : value)
    (s : string) (this : instance) :
  normalize (VStr s) = VArr [VStr s] /\
  normalize (VArr [VStr s]) = VArr [VStr s] /\
  init success fail opts (VStr s) this = init success fail opts (VArr [VStr s]) this /\
  getProductDetails success fail (VStr s) this =
    getProductDetails success fail (VArr [VStr s]) this /\
  bridge_calls (events (init success fail opts (VStr s) this)) =
    [ CordovaExec success fail "InAppBillingPlugin" "init" [VArr [VStr s]] ] /\
  bridge_calls (events (getProductDetails success fail (VStr s) this)) =
    [ CordovaExec success fail "InAppBillingPlugin" "getProductDetails"
        [VArr [VStr s]] ] /\
  callback_calls (events (init success fail opts (VStr s) this)) = [] /\
  callback_calls (events (getProductDetails success fail (VStr s) this)) = [].
Proof.
  do 4 (split; [ reflexivity | ]).
  run this; repeat split; reflexivity.
Qed.

(** C2, at an array that starts with a BigInt: [JSON.stringify] throws
    while the message is built, so [fail] is never called. *)
Lemma malformed_bigint_never_reaches_fail :
  (outcome (getProductDetails (Callback 0) (Callback 1) (VArr [VBigInt 10]) InAppBilling) =
     TypeError /\
   callback_calls
     (events (getProductDetails (Callback 0) (Callback 1) (VArr [VBigInt 10])
                InAppBilling)) = []) /\
  (outcome (init (Callback 0) (Callback 1) VUndefined (VArr [VBigInt 10]) InAppBilling) =
     TypeError /\
   callback_calls
     (events (init (Callback 0) (Callback 1) VUndefined (VArr [VBigInt 10])
                InAppBilling)) = []).
Proof.
  repeat split; reflexivity.
Qed.

(** The same for an array that holds itself as its first element. *)
Example malformed_cycle_never_reaches_fail :
  outcome (getProductDetails (Callback 0) (Callback 1) (VArr [VCycle 0]) InAppBilling) =
    TypeError /\
  callback_calls
    (events (getProductDetails (Callback 0) (Callback 1) (VArr [VCycle 0])
               InAppBilling)) = [].
Proof. split; reflexivity. Qed.

(** C2, amended: when [productIds] is, once normalised, a non-empty array
    whose first element is not a string, [init] and [getProductDetails]
    never make a bridge call.  When [JSON.stringify] returns for it, they
    call [fail] once, before they return, with a string: "invalid
    productIds: " followed by the JSON text of [productIds].  When
    [JSON.stringify] throws, so do they, and [fail] is not called. *)
Theorem malformed_productIds_rejected (success fail : callback) (opts productIds : value)
    (head : value) (rest : list value) (this : instance) :
  normalize productIds = VArr (head :: rest) ->
  typeof head <> "string" ->
  (bridge_calls (events (init success fail opts productIds this)) = [] /\
   bridge_calls (events (getProductDetails success fail productIds this)) = []) /\
  (forall text, JSON.stringify productIds = Normal text ->
   exists serialized msg,
     text = Some serialized /\
     msg = "invalid productIds: " ++ serialized /\
     contains msg serialized /\
     (outcome (init success fail opts productIds this) = Normal Nothing /\
      callback_calls (events (init success fail opts productIds this)) =
        [Invoke fail (VStr msg)]) /\
     (outcome (getProductDetails success fail productIds this) = Normal Nothing /\
      callback_calls (events (getProductDetails success fail productIds this)) =
        [Invoke fail (VStr msg)])) /\
  (JSON.stringify productIds = TypeError ->
   (outcome (init success fail opts productIds this) = TypeError /\
    callback_calls (events (init success fail opts productIds this)) = []) /\
   (outcome (getProductDetails success fail productIds this) = TypeError /\
    callback_calls (events (getProductDetails success fail productIds this)) = [])).
Proof.
  intros Hnorm Hhead.
  destruct (normalize_array _ _ Hnorm) as [ (s & _ & Hs) | -> ].
  { inversion Hs; subst. exfalso. apply Hhead. reflexivity. }
  split; [ | split ].
  - destruct head; try (exfalso; apply Hhead; reflexivity);
      run this; explore; split; reflexivity.
  - intros text Hser.
    destruct (JSON_stringify_array _ _ Hser) as [serialized ->].
    exists serialized, ("invalid productIds: " ++ serialized).
    split; [ reflexivity | ].
    split; [ reflexivity | ].
    split; [ apply contains_suffix | ].
    destruct head; try (exfalso; apply Hhead; reflexivity);
      run this; rewrite ?Hser; cbn; repeat (rewrite ?L; cbn);
      repeat split; reflexivity.
  - intros Hser.
    destruct head; try (exfalso; apply Hhead; reflexivity);
      run this; rewrite ?Hser; cbn; repeat split; reflexivity.
Qed.

Lemma malformed_productIds_rejected_witness :
  normalize (VArr [VNum 42]) = VArr [VNum 42] /\
  typeof (VNum 42) <> "string" /\
  JSON.stringify (VArr [VNum 42]) = Normal (Some "[42]") /\
  bridge_calls
    (events (init (Callback 0) (Callback 1) VUndefined (VArr [VNum 42]) InAppBilling)) =
    [] /\
  bridge_calls
    (events (getProductDetails (Callback 0) (Callback 1) (VArr [VNum 42]) InAppBilling)) =
    [] /\
  exists serialized msg,
    Some "[42]" = Some serialized /\
    msg = "invalid productIds: " ++ serialized /\
    contains msg serialized /\
    (outcome (init (Callback 0) (Callback 1) VUndefined (VArr [VNum 42]) InAppBilling) =
       Normal Nothing /\
     callback_calls
       (events (init (Callback 0) (Callback 1) VUndefined (VArr [VNum 42]) InAppBilling)) =
       [Invoke (Callback 1) (VStr msg)]) /\
    (outcome (getProductDetails (Callback 0) (Callback 1) (VArr [VNum 42]) InAppBilling) =
       Normal Nothing /\
     callback_calls
       (events (getProductDetails (Callback 0) (Callback 1) (VArr [VNum 42]) InAppBilling)) =
       [Invoke (Callback 1) (VStr msg)]).
Proof.
  split; [ reflexivity | ].
  split; [ discriminate | ].
  split; [ reflexivity | ].
  destruct (malformed_productIds_rejected (Callback 0) (Callback 1) VUndefined
              (VArr [VNum 42]) (VNum 42) [] InAppBilling) as [ [B1 B2] [Hmsg _] ];
    [ reflexivity | discriminate | ].
  split; [ exact B1 | ].
  split; [ exact B2 | ].
  apply Hmsg. reflexivity.
Defined.

(** The example of the specification: the message for [[42]]. *)
Example getProductDetails_42 :
  events (getProductDetails (Callback 0) (Callback 1) (VArr [VNum 42]) InAppBilling) =
    [ ConsoleLog "InAppBilling[js]: getProductDetails called!";
      ConsoleLog "InAppBilling[js]: invalid productIds: [42]";
      Invoke (Callback 1) (VStr "invalid productIds: [42]") ].
Proof. reflexivity. Qed.

(** A Number too large to be written with all its digits takes the
    exponent form in the message, as [JSON.stringify] writes it. *)
Example getProductDetails_1e21 :
  callback_calls
    (events (getProductDetails (Callback 0) (Callback 1)
               (VArr [VNum 1000000000000000000000]) InAppBilling)) =
    [ Invoke (Callback 1) (VStr "invalid productIds: [1e+21]") ].
Proof. vm_compute. reflexivity. Qed.

(** C3, at the empty string: the string is first wrapped, the array
    holding it has length 1, and the call goes to the bridge. *)
Lemma getProductDetails_empty_string_reaches_bridge :
  bridge_calls
    (events (getProductDetails (Callback 0) (Callback 1) (VStr EmptyString) InAppBilling)) =
    [ CordovaExec (Callback 0) (Callback 1) "InAppBillingPlugin" "getProductDetails"
        [VArr [VStr EmptyString]] ] /\
  bridge_calls
    (events (getProductDetails (Callback 0) (Callback 1) (VStr EmptyString) InAppBilling)) <>
    [].
Proof.
  split; [ reflexivity | discriminate ].
Qed.

(** C3, amended: for the empty array [getProductDetails] returns after its
    first log line, with no bridge call and no call of either callback; the
    empty string is forwarded in one bridge call as the array holding it,
    and no callback is called by the facade. *)
Theorem getProductDetails_empty (success fail : callback) (this : instance) :
  (outcome (getProductDetails success fail (VArr []) this) = Normal Nothing /\
   events (getProductDetails success fail (VArr []) this) =
     events (log "getProductDetails called!" this) /\
   bridge_calls (events (getProductDetails success fail (VArr []) this)) = [] /\
   callback_calls (events (getProductDetails success fail (VArr []) this)) = []) /\
  (outcome (getProductDetails success fail (VStr EmptyString) this) = Normal ResultOfExec /\
   bridge_calls (events (getProductDetails success fail (VStr EmptyString) this)) =
     [ CordovaExec success fail "InAppBillingPlugin" "getProductDetails"
         [VArr [VStr EmptyString]] ] /\
   callback_calls (events (getProductDetails success fail (VStr EmptyString) this)) = []).
Proof.
  run this; repeat split; reflexivity.
Qed.

(** C10, at a BigInt behind the first element: the line "load ..." is
    built with [JSON.stringify], which throws, and the bridge is never
    called. *)
Lemma later_bigint_blocks_the_bridge :
  (outcome (init (Callback 0) (Callback 1) VUndefined
              (VArr [VStr "sku1"; VBigInt 10]) InAppBilling) = TypeError /\
   bridge_calls
     (events (init (Callback 0) (Callback 1) VUndefined
                (VArr [VStr "sku1"; VBigInt 10]) InAppBilling)) = []) /\
  (outcome (getProductDetails (Callback 0) (Callback 1)
              (VArr [VStr "sku1"; VBigInt 10]) InAppBilling) = TypeError /\
   bridge_calls
     (events (getProductDetails (Callback 0) (Callback 1)
                (VArr [VStr "sku1"; VBigInt 10]) InAppBilling)) = []).
Proof.
  repeat split; reflexivity.
Qed.

(** C10, amended: only the first element is looked at.  For every array
    that starts with a string and that [JSON.stringify] returns for,
    whatever follows the string, [init] and [getProductDetails] make
    exactly one bridge call, whose argument list holds that very array,
    and call no callback.  When [JSON.stringify] throws for the array, so
    do they, without a bridge call or a call of a callback. *)
Theorem validation_checks_first_element_only (success fail : callback) (opts : value)
    (s : string) (rest : list value) (this : instance) :
  (serialises (VArr (VStr s :: rest)) ->
   (outcome (init success fail opts (VArr (VStr s :: rest)) this) = Normal ResultOfExec /\
    bridge_calls (events (init success fail opts (VArr (VStr s :: rest)) this)) =
      [ CordovaExec success fail "InAppBillingPlugin" "init" [VArr (VStr s :: rest)] ] /\
    callback_calls (events (init success fail opts (VArr (VStr s :: rest)) this)) = []) /\
   (outcome (getProductDetails success fail (VArr (VStr s :: rest)) this) =
      Normal ResultOfExec /\
    bridge_calls (events (getProductDetails success fail (VArr (VStr s :: rest)) this)) =
      [ CordovaExec success fail "InAppBillingPlugin" "getProductDetails"
          [VArr (VStr s :: rest)] ] /\
    callback_calls (events (getProductDetails success fail (VArr (VStr s :: rest)) this)) =
      [])) /\
  (JSON.stringify (VArr (VStr s :: rest)) = TypeError ->
   (outcome (init success fail opts (VArr (VStr s :: rest)) this) = TypeError /\
    bridge_calls (events (init success fail opts (VArr (VStr s :: rest)) this)) = [] /\
    callback_calls (events (init success fail opts (VArr (VStr s :: rest)) this)) = []) /\
   (outcome (getProductDetails success fail (VArr (VStr s :: rest)) this) = TypeError /\
    bridge_calls (events (getProductDetails success fail (VArr (VStr s :: rest)) this)) =
      [] /\
    callback_calls (events (getProductDetails success fail (VArr (VStr s :: rest)) this)) =
      [])).
Proof.
  split.
  - intros [text Hser].
    run this; rewrite ?Hser; cbn; repeat (rewrite ?L; cbn); repeat split; reflexivity.
  - intros Hser.
    run this; rewrite ?Hser; cbn; repeat split; reflexivity.
Qed.

Lemma validation_checks_first_element_only_witness :
  serialises (VArr [VStr "sku1"; VNum 42]) /\
  JSON.stringify (VArr [VStr "sku1"; VBigInt 10]) = TypeError /\
  bridge_calls
    (events (init (Callback 0) (Callback 1) VUndefined (VArr [VStr "sku1"; VNum 42])
               InAppBilling)) =
    [ CordovaExec (Callback 0) (Callback 1) "InAppBillingPlugin" "init"
        [VArr [VStr "sku1"; VNum 42]] ] /\
  bridge_calls
    (events (getProductDetails (Callback 0) (Callback 1) (VArr [VStr "sku1"; VBigInt 10])
               InAppBilling)) = [].
Proof.
  assert (S : serialises (VArr [VStr "sku1"; VNum 42])) by (eexists; reflexivity).
  split; [ exact S | ].
  split; [ reflexivity | ].
  split.
  - apply (proj1 (validation_checks_first_element_only (Callback 0) (Callback 1)
                    VUndefined "sku1" [VNum 42] InAppBilling) S).
  - apply (proj2 (validation_checks_first_element_only (Callback 0) (Callback 1)
                    VUndefined "sku1" [VBigInt 10] InAppBilling)).
    reflexivity.
Defined.

(** The same for an array that holds itself behind the first element. *)
Example later_cycle_blocks_the_bridge :
  outcome (getProductDetails (Callback 0) (Callback 1)
             (VArr [VStr "sku1"; VCycle 0]) InAppBilling) = TypeError /\
  bridge_calls
    (events (getProductDetails (Callback 0) (Callback 1)
               (VArr [VStr "sku1"; VCycle 0]) InAppBilling)) = [].
Proof. split; reflexivity. Qed.

(** A later element that is not a string goes to the bridge as it is. *)
Example init_string_then_number :
  bridge_calls
    (events (init (Callback 0) (Callback 1) VUndefined (VArr [VStr "sku1"; VNum 42])
               InAppBilling)) =
    [ CordovaExec (Callback 0) (Callback 1) "InAppBillingPlugin" "init"
        [VArr [VStr "sku1"; VNum 42]] ].
Proof. reflexivity. Qed.

(** ** What [init] forwards *)



(** ** [init] without options *)

(** With the options left out and [null] for the products, the call ends
    in a TypeError raised by [productIds.length], as it does for any
    options. *)
Example init_null_productIds_throws :
  outcome (init (Callback 0) (Callback 1) VUndefined VNull InAppBilling) = TypeError /\
  outcome (init (Callback 0) (Callback 1) (VObj []) VNull InAppBilling) = TypeError.
Proof. split; reflexivity. Qed.

(** C9: with [options] absent (that is [undefined]) or [null], [init]
    does all it does for the empty object: same outcome, same instance
    afterwards, same events.  It stores [showLog: true] and keeps the
    logger.  And it does not throw: for [productIds] absent, a string, or
    an array that [JSON.stringify] returns for, as it does for every array
    of strings, the call returns.  (The runs are compared for every
    [productIds] but an object whose [length] is a string, an array or an
    object.) *)
Theorem init_without_options (success fail : callback) (productIds : value)
    (this : instance) :
  (plain_length productIds = true ->
   init success fail VUndefined productIds this =
     init success fail (VObj []) productIds this /\
   init success fail VNull productIds this =
     init success fail (VObj []) productIds this) /\
  (after (init success fail VUndefined productIds this) =
     {| options := VObj [("showLog", VBool true)]; log_replaced := log_replaced this |} /\
   after (init success fail VNull productIds this) =
     {| options := VObj [("showLog", VBool true)]; log_replaced := log_replaced this |}) /\
  (productIds = VUndefined \/
   (exists s, productIds = VStr s) \/
   (exists elems, productIds = VArr elems /\ serialises productIds) ->
   (exists r, outcome (init success fail VUndefined productIds this) = Normal r) /\
   (exists r, outcome (init success fail VNull productIds this) = Normal r)).
Proof.
  assert (E : init success fail VNull productIds this =
              init success fail VUndefined productIds this) by reflexivity.
  split; [ intros _; split; reflexivity | ].
  rewrite E.
  split.
  - split; run_on this productIds; reflexivity.
  - intros [ -> | [ [s ->] | (elems & -> & text & Hser) ] ].
    + split; run this; eexists; reflexivity.
    + split; run this; eexists; reflexivity.
    + split; run this; rewrite ?Hser; explore; eexists; reflexivity.
Qed.

Lemma init_without_options_witness :
  plain_length (VArr [VStr "sku1"; VStr "sku2"]) = true /\
  (exists elems,
     VArr [VStr "sku1"; VStr "sku2"] = VArr elems /\
     serialises (VArr [VStr "sku1"; VStr "sku2"])) /\
  init (Callback 0) (Callback 1) VUndefined (VArr [VStr "sku1"; VStr "sku2"])
    InAppBilling =
    init (Callback 0) (Callback 1) (VObj []) (VArr [VStr "sku1"; VStr "sku2"])
      InAppBilling /\
  (exists r,
     outcome (init (Callback 0) (Callback 1) VUndefined (VArr [VStr "sku1"; VStr "sku2"])
                InAppBilling) = Normal r).
Proof.
  assert (D : exists elems,
             VArr [VStr "sku1"; VStr "sku2"] = VArr elems /\
             serialises (VArr [VStr "sku1"; VStr "sku2"])).
  { eexists. split; [ reflexivity | eexists; reflexivity ]. }
  split; [ reflexivity | ].
  split; [ exact D | ].
  destruct (init_without_options (Callback 0) (Callback 1)
              (VArr [VStr "sku1"; VStr "sku2"]) InAppBilling) as (E & _ & N).
  split; [ apply E; reflexivity | ].
  apply N. right. right. exact D.
Defined.

(** * Further properties of the facade *)

(** ** What [init] leaves in the instance *)

(** The instance after [init], on every path through it. *)
Lemma init_after (success fail : callback) (opts productIds : value) (this : instance) :
  after (init success fail opts productIds this) =
    {| options :=
         VObj [("showLog",
                if ToBoolean (requested_showLog opts) then requested_showLog opts
                else VBool true)];
       log_replaced := log_replaced this |}.
Proof.
  run_on this productIds; reflexivity.
Qed.


(** The instance after each of the six other operations. *)
Lemma others_after (success fail : callback) (v : value) (this : instance) :
  after (getPurchases success fail this) = this /\
  after (buy success fail v this) = this /\
  after (subscribe success fail v this) = this /\
  after (consumePurchase success fail v this) = this /\
  after (getAvailableProducts success fail this) = this /\
  after (getProductDetails success fail v this) = this.
Proof.
  repeat split;
    try (run this; reflexivity).
  run_on this v; reflexivity.
Qed.

(** X2: the six other operations never write to the instance, whatever their
    arguments and however they end. *)
Theorem other_operations_keep_instance (success fail : callback) (v : value)
    (this : instance) :
  after (getPurchases success fail this) = this /\
  after (buy success fail v this) = this /\
  after (subscribe success fail v this) = this /\
  after (consumePurchase success fail v this) = this /\
  after (getAvailableProducts success fail this) = this /\
  after (getProductDetails success fail v this) = this.
Proof.
  apply others_after.
Qed.

(** X3: a second [init] forgets the first: outcome, instance and events are
    those of the same call on the instance as it was before the first.
    The [productIds] of the second call are any but an object whose
    [length] is a string, an array or an object. *)
Theorem init_after_init (success fail success' fail' : callback)
    (opts productIds opts' productIds' : value) (this : instance) :
  plain_length productIds = true ->
  init success fail opts productIds
    (after (init success' fail' opts' productIds' this)) =
  init success fail opts productIds this.
Proof.
  intros _.
  rewrite init_after.
  unfold init. unfold_monad. cbv beta zeta.
  rewrite Get_requested. cbn. rewrite or_true_truthy. cbn.
  reflexivity.
Qed.

Lemma init_after_init_witness :
  plain_length (VArr [VStr "sku2"]) = true /\
  init (Callback 2) (Callback 3) (VObj [("showLog", VBool false)]) (VArr [VStr "sku2"])
    (after (init (Callback 0) (Callback 1) VUndefined (VStr "sku1") InAppBilling)) =
  init (Callback 2) (Callback 3) (VObj [("showLog", VBool false)]) (VArr [VStr "sku2"])
    InAppBilling.
Proof.
  split; [ reflexivity | ].
  apply (init_after_init (Callback 2) (Callback 3) (Callback 0) (Callback 1)
           (VObj [("showLog", VBool false)]) (VArr [VStr "sku2"]) VUndefined
           (VStr "sku1") InAppBilling).
  reflexivity.
Defined.

(** ** The exported instance over a session *)

Lemma perform_keeps_log (c : call) (this : instance) :
  log_replaced (after (perform c this)) = log_replaced this.
Proof.
  destruct c as [ s f o p | s f | s f p | s f p | s f p | s f | s f p ]; cbn [perform].
  - apply init_keeps_log.
  - destruct (others_after s f VUndefined this) as (E & _).
    rewrite E. reflexivity.
  - destruct (others_after s f p this) as (_ & E & _).
    rewrite E. reflexivity.
  - destruct (others_after s f p this) as (_ & _ & E & _).
    rewrite E. reflexivity.
  - destruct (others_after s f p this) as (_ & _ & _ & E & _).
    rewrite E. reflexivity.
  - destruct (others_after s f VUndefined this) as (_ & _ & _ & _ & E & _).
    rewrite E. reflexivity.
  - destruct (others_after s f p this) as (_ & _ & _ & _ & _ & E).
    rewrite E. reflexivity.
Qed.

Lemma perform_keeps_options_shape (c : call) (this : instance) :
  options this = VObj [] \/ truthy_showLog (options this) = true ->
  options (after (perform c this)) = VObj [] \/
  truthy_showLog (options (after (perform c this))) = true.
Proof.
  intros H.
  destruct c as [ s f o p | s f | s f p | s f p | s f p | s f | s f p ]; cbn [perform].
  - right. rewrite init_after. cbn. apply or_true_truthy.
  - destruct (others_after s f VUndefined this) as (E & _).
    rewrite E. exact H.
  - destruct (others_after s f p this) as (_ & E & _).
    rewrite E. exact H.
  - destruct (others_after s f p this) as (_ & _ & E & _).
    rewrite E. exact H.
  - destruct (others_after s f p this) as (_ & _ & _ & E & _).
    rewrite E. exact H.
  - destruct (others_after s f VUndefined this) as (_ & _ & _ & _ & E & _).
    rewrite E. exact H.
  - destruct (others_after s f p this) as (_ & _ & _ & _ & _ & E).
    rewrite E. exact H.
Qed.

Lemma session_invariant (calls : list call) : forall this : instance,
  log_replaced (fst (session calls this)) = log_replaced this /\
  (options this = VObj [] \/ truthy_showLog (options this) = true ->
   options (fst (session calls this)) = VObj [] \/
   truthy_showLog (options (fst (session calls this))) = true).
Proof.
  induction calls as [ | c calls IH ]; intros this; cbn [session].
  - split; [ reflexivity | intros H; exact H ].
  - destruct (IH (after (perform c this))) as [IHlog IHopt].
    destruct (session calls (after (perform c this))) as [this' out] eqn:E.
    cbn [fst] in *. split.
    + rewrite IHlog. apply perform_keeps_log.
    + intros H. apply IHopt. apply perform_keeps_options_shape. exact H.
Qed.

(** X4: whatever calls the application has made on the exported instance, in
    whatever order and with whatever arguments, the instance still has the
    logger of the prototype, and its [options] are the empty object of the
    constructor or a [{showLog: v}] with [v] truthy. *)
Theorem exported_instance_invariant (calls : list call) :
  log_replaced (fst (session calls InAppBilling)) = false /\
  (options (fst (session calls InAppBilling)) = VObj [] \/
   truthy_showLog (options (fst (session calls InAppBilling))) = true).
Proof.
  destruct (session_invariant calls InAppBilling) as [Hlog Hopt].
  split; [ exact Hlog | apply Hopt; left; reflexivity ].
Qed.

Lemma perform_announces (c : call) (this : instance) :
  log_replaced this = false ->
  exists rest,
    events (perform c this) =
      ConsoleLog ("InAppBilling[js]: " ++ announcement c) :: rest.
Proof.
  intros H.
  destruct c as [ s f o p | s f | s f p | s f p | s f p | s f | s f p ];
    cbn [perform announcement];
    [ run_on this p | run this | run this | run this | run this | run this
    | run_on this p ];
    try discriminate H; eexists; reflexivity.
Qed.

(** X5: on the exported instance every call of every operation, whatever came
    before it and whatever its arguments, starts by printing its own line:
    "setup ok" for [init], "<operation> called!" for the others. *)
Theorem every_call_announces_itself (calls : list call) (c : call) :
  exists rest,
    events (perform c (fst (session calls InAppBilling))) =
      ConsoleLog ("InAppBilling[js]: " ++ announcement c) :: rest.
Proof.
  apply perform_announces.
  destruct (session_invariant calls InAppBilling) as [Hlog _]. exact Hlog.
Qed.

(** ** Exceptions and answers *)

(** X6: [init] given [null] for the products throws at [productIds.length],
    after its first log line; [getProductDetails], which has no test for a
    missing argument, does so for [undefined] and for [null].  Among the
    [productIds] that [JSON.stringify] returns for, these are the only ones
    either operation throws at ([init]: no object whose [length] is a
    string, an array or an object). *)
Theorem missing_productIds_throw (success fail : callback) (opts productIds : value)
    (this : instance) :
  (outcome (init success fail opts VNull this) = TypeError /\
   events (init success fail opts VNull this) = events (log "setup ok" this)) /\
  (outcome (getProductDetails success fail VUndefined this) = TypeError /\
   events (getProductDetails success fail VUndefined this) =
     events (log "getProductDetails called!" this)) /\
  (outcome (getProductDetails success fail VNull this) = TypeError /\
   events (getProductDetails success fail VNull this) =
     events (log "getProductDetails called!" this)) /\
  (serialises (normalize productIds) ->
   (plain_length productIds = true ->
    outcome (init success fail opts productIds this) = TypeError ->
    productIds = VNull) /\
   (outcome (getProductDetails success fail productIds this) = TypeError ->
    productIds = VUndefined \/ productIds = VNull)).
Proof.
  split; [ run this; split; reflexivity | ].
  split; [ run this; split; reflexivity | ].
  split; [ run this; split; reflexivity | ].
  intros [text Hser]. split.
  - intros P T. revert P T Hser.
    run_on this productIds; intros P T Hser;
      solve [ reflexivity | discriminate P | discriminate T | discriminate Hser ].
  - intros T. revert T Hser.
    run_on this productIds; intros T Hser;
      solve [ left; reflexivity | right; reflexivity | discriminate T
            | discriminate Hser ].
Qed.

Lemma missing_productIds_throw_witness :
  serialises (normalize VNull) /\
  plain_length VNull = true /\
  outcome (init (Callback 0) (Callback 1) VUndefined VNull InAppBilling) = TypeError /\
  VNull = VNull.
Proof.
  assert (S : serialises (normalize VNull)) by (eexists; reflexivity).
  split; [ exact S | ].
  split; [ reflexivity | ].
  destruct (missing_productIds_throw (Callback 0) (Callback 1) VUndefined VNull
              InAppBilling) as ((T & _) & _ & _ & C).
  split; [ exact T | ].
  apply (proj1 (C S)); [ reflexivity | exact T ].
Defined.

Lemma perform_disciplined (c : call) (this : instance) :
  within_model c = true ->
  disciplined (success_of c) (fail_of c) (events (perform c this)).
Proof.
  unfold disciplined.
  destruct c as [ s f o p | s f | s f p | s f p | s f p | s f | s f p ];
    cbn [perform success_of fail_of within_model];
    intros W; revert W;
    [ run_on this p | run this | run this | run this | run this | run this
    | run_on this p ];
    intros W; try discriminate W;
    (split; [ reflexivity | ]);
    (split; [ cbn; lia | ]);
    split; repeat constructor; eauto.
Qed.

(** X7: every call of every operation, on any instance and with any
    arguments but an object whose [length] is a string, an array or an
    object given to [init], first writes its console lines and then gives
    at most one answer: a bridge call to "InAppBillingPlugin" that carries
    the caller's own two callbacks, or a call of the caller's [fail] with a
    string, never both.  The facade never calls [success] itself. *)
Theorem calls_are_disciplined (c : call) (this : instance) :
  within_model c = true ->
  disciplined (success_of c) (fail_of c) (events (perform c this)).
Proof.
  apply perform_disciplined.
Qed.

Lemma calls_are_disciplined_witness :
  within_model (call_init (Callback 0) (Callback 1) VUndefined (VArr [VBigInt 10])) = true /\
  disciplined (Callback 0) (Callback 1)
    (events (perform (call_init (Callback 0) (Callback 1) VUndefined (VArr [VBigInt 10]))
               InAppBilling)).
Proof.
  split; [ reflexivity | ].
  apply (calls_are_disciplined
           (call_init (Callback 0) (Callback 1) VUndefined (VArr [VBigInt 10]))
           InAppBilling).
  reflexivity.
Defined.

(** X8: a number or a boolean given as [productIds] has no [length]: [init]
    takes it for no products and calls the bridge with the empty argument
    list; [getProductDetails] returns after its first log line, with no
    bridge call and no call of a callback. *)
Theorem scalar_productIds_are_no_products (success fail : callback) (opts : value)
    (n : Z) (b : bool) (this : instance) :
  (outcome (init success fail opts (VNum n) this) = Normal ResultOfExec /\
   bridge_calls (events (init success fail opts (VNum n) this)) =
     [ CordovaExec success fail "InAppBillingPlugin" "init" [] ] /\
   callback_calls (events (init success fail opts (VNum n) this)) = []) /\
  (outcome (init success fail opts (VBool b) this) = Normal ResultOfExec /\
   bridge_calls (events (init success fail opts (VBool b) this)) =
     [ CordovaExec success fail "InAppBillingPlugin" "init" [] ] /\
   callback_calls (events (init success fail opts (VBool b) this)) = []) /\
  (outcome (getProductDetails success fail (VNum n) this) = Normal Nothing /\
   events (getProductDetails success fail (VNum n) this) =
     events (log "getProductDetails called!" this)) /\
  (outcome (getProductDetails success fail (VBool b) this) = Normal Nothing /\
   events (getProductDetails success fail (VBool b) this) =
     events (log "getProductDetails called!" this)).
Proof.
  run this; repeat split; reflexivity.
Qed.

(** X9: every line that any operation writes to the console, for any
    arguments but an object whose [length] is a string, an array or an
    object given to [init], starts with "InAppBilling[js]: ". *)
Theorem console_lines_prefixed (c : call) (this : instance) :
  within_model c = true ->
  forallb prefixed (events (perform c this)) = true.
Proof.
  destruct c as [ s f o p | s f | s f p | s f p | s f p | s f | s f p ];
    cbn [perform within_model];
    intros W; revert W;
    [ run_on this p | run this | run this | run this | run this | run this
    | run_on this p ];
    intros W; try discriminate W; reflexivity.
Qed.

Lemma console_lines_prefixed_witness :
  within_model (call_getProductDetails (Callback 0) (Callback 1) (VArr [VNum 42])) = true /\
  forallb prefixed
    (events (perform (call_getProductDetails (Callback 0) (Callback 1) (VArr [VNum 42]))
               InAppBilling)) = true.
Proof.
  split; [ reflexivity | ].
  apply (console_lines_prefixed
           (call_getProductDetails (Callback 0) (Callback 1) (VArr [VNum 42]))
           InAppBilling).
  reflexivity.
Defined.

(** ** What an operation depends on *)

(** A call sees of the instance only which logger it has. *)
Lemma perform_reads_logger_only (c : call) (o : value) (l : bool) :
  within_model c = true ->
  outcome (perform c {| options := o; log_replaced := l |}) =
    outcome (perform c {| options := VObj []; log_replaced := l |}) /\
  events (perform c {| options := o; log_replaced := l |}) =
    events (perform c {| options := VObj []; log_replaced := l |}).
Proof.
  destruct l;
    destruct c as [ s f o' p | s f | s f p | s f p | s f p | s f | s f p ];
    cbn [perform within_model];
    intros W; revert W;
    unfold init, getProductDetails, getPurchases, getAvailableProducts, buy,
      subscribe, consumePurchase, outcome, events;
    unfold_monad; cbv beta zeta;
    rewrite ?Get_requested; cbn; rewrite ?or_true_truthy; cbn;
    try (intros _; split; reflexivity);
    destruct p as [ | | ? | ? | ? | ? | ? | ? | ? ]; explore;
    intros W; try discriminate W; split; reflexivity.
Qed.

(** X10: no operation reads the stored [options]: on two instances that have
    the same logger, a call with the same arguments (any but an object
    whose [length] is a string, an array or an object given to [init])
    ends the same way and produces the same events, whatever [options]
    each instance holds. *)
Theorem operations_ignore_options (c : call) (this1 this2 : instance) :
  within_model c = true ->
  log_replaced this1 = log_replaced this2 ->
  outcome (perform c this1) = outcome (perform c this2) /\
  events (perform c this1) = events (perform c this2).
Proof.
  intros W.
  destruct this1 as [o1 l1], this2 as [o2 l2]. cbn [log_replaced].
  intros ->.
  destruct (perform_reads_logger_only c o1 l2 W) as [E1 E2].
  destruct (perform_reads_logger_only c o2 l2 W) as [F1 F2].
  rewrite E1, E2, F1, F2. split; reflexivity.
Qed.

Lemma operations_ignore_options_witness :
  within_model (call_getProductDetails (Callback 0) (Callback 1) (VArr [VNum 42])) = true /\
  log_replaced InAppBilling =
    log_replaced {| options := VObj [("showLog", VStr "yes")]; log_replaced := false |} /\
  events (perform (call_getProductDetails (Callback 0) (Callback 1) (VArr [VNum 42]))
            InAppBilling) =
    events (perform (call_getProductDetails (Callback 0) (Callback 1) (VArr [VNum 42]))
              {| options := VObj [("showLog", VStr "yes")]; log_replaced := false |}).
Proof.
  split; [ reflexivity | ].
  split; [ reflexivity | ].
  apply (operations_ignore_options
           (call_getProductDetails (Callback 0) (Callback 1) (VArr [VNum 42]))
           InAppBilling
           {| options := VObj [("showLog", VStr "yes")]; log_replaced := false |});
    reflexivity.
Defined.

(** ** The table of error codes as a set *)

(** X11: a number is one of the error codes exactly when it lies from base + 1
    to base + 20 and is not base + 9. *)
Theorem error_code_membership (c : Z) :
  In c error_codes <->
  ERROR_CODES_BASE + 1 <= c <= ERROR_CODES_BASE + 20 /\ c <> ERROR_CODES_BASE + 9.
Proof.
  unfold error_codes, ERR_SETUP, ERR_LOAD, ERR_PURCHASE, ERR_LOAD_RECEIPTS,
    ERR_CLIENT_INVALID, ERR_PAYMENT_CANCELLED, ERR_PAYMENT_INVALID,
    ERR_PAYMENT_NOT_ALLOWED, ERR_UNKNOWN, ERR_LOAD_INVENTORY, ERR_HELPER_DISPOSED,
    ERR_NOT_INITIALIZED, ERR_INVENTORY_NOT_LOADED, ERR_PURCHASE_FAILED,
    ERR_JSON_CONVERSION_FAILED, ERR_INVALID_PURCHASE_PAYLOAD,
    ERR_SUBSCRIPTION_NOT_SUPPORTED, ERR_CONSUME_NOT_OWNED_ITEM,
    ERR_CONSUMPTION_FAILED, ERROR_CODES_BASE.
  cbn [In]. lia.
Qed.

(** ** Answers over a session *)

Lemma answers_app (out out' : list event) :
  (List.length (bridge_calls (out ++ out')) +
   List.length (callback_calls (out ++ out')) =
   (List.length (bridge_calls out) + List.length (callback_calls out)) +
   (List.length (bridge_calls out') + List.length (callback_calls out')))%nat.
Proof.
  unfold bridge_calls, callback_calls.
  rewrite !filter_app, !length_app. lia.
Qed.

(** X12: a session of [n] calls, none of them an [init] given an object
    whose [length] is a string, an array or an object, makes, bridge calls
    and calls of a callback taken together, at most [n] of them: the
    facade answers a call at most once and never on its own. *)
Theorem session_answers_bounded (calls : list call) (this : instance) :
  forallb within_model calls = true ->
  (List.length (bridge_calls (snd (session calls this))) +
   List.length (callback_calls (snd (session calls this))) <=
   List.length calls)%nat.
Proof.
  revert this. induction calls as [ | c calls IH ]; intros this W; cbn [session].
  - cbn. lia.
  - cbn [forallb] in W. apply andb_true_iff in W. destruct W as [Wc W].
    specialize (IH (after (perform c this)) W).
    destruct (session calls (after (perform c this))) as [this' out].
    cbn [snd] in *. rewrite answers_app.
    destruct (perform_disciplined c this Wc) as (_ & Hone & _).
    cbn [List.length]. lia.
Qed.

Lemma session_answers_bounded_witness :
  forallb within_model
    [ call_init (Callback 0) (Callback 1) VUndefined (VArr [VNum 42]);
      call_buy (Callback 2) (Callback 3) (VStr "sku1") ] = true /\
  (List.length
     (bridge_calls
        (snd (session
                [ call_init (Callback 0) (Callback 1) VUndefined (VArr [VNum 42]);
                  call_buy (Callback 2) (Callback 3) (VStr "sku1") ] InAppBilling))) +
   List.length
     (callback_calls
        (snd (session
                [ call_init (Callback 0) (Callback 1) VUndefined (VArr [VNum 42]);
                  call_buy (Callback 2) (Callback 3) (VStr "sku1") ] InAppBilling))) <=
   List.length
     [ call_init (Callback 0) (Callback 1) VUndefined (VArr [VNum 42]);
       call_buy (Callback 2) (Callback 3) (VStr "sku1") ])%nat.
Proof.
  split; [ reflexivity | ].
  apply (session_answers_bounded
           [ call_init (Callback 0) (Callback 1) VUndefined (VArr [VNum 42]);
             call_buy (Callback 2) (Callback 3) (VStr "sku1") ] InAppBilling).
  reflexivity.
Defined.

(** ** More on product identifiers *)

(** X13: a plain object without a [length] property, such as [{}], given as
    [productIds]: [init] takes it for no products and calls the bridge
    with the empty argument list, and [getProductDetails] returns after
    its first log line without any answer. *)
Theorem object_without_length_is_no_products (success fail : callback) (opts : value)
    (props : list (string * value)) (this : instance) :
  own_property "length" props = VUndefined ->
  (outcome (init success fail opts (VObj props) this) = Normal ResultOfExec /\
   bridge_calls (events (init success fail opts (VObj props) this)) =
     [ CordovaExec success fail "InAppBillingPlugin" "init" [] ] /\
   callback_calls (events (init success fail opts (VObj props) this)) = []) /\
  (outcome (getProductDetails success fail (VObj props) this) = Normal Nothing /\
   events (getProductDetails success fail (VObj props) this) =
     events (log "getProductDetails called!" this)).
Proof.
  intros H. run this; rewrite ?H; cbn; repeat (rewrite ?L; cbn);
    repeat split; reflexivity.
Qed.

Lemma object_without_length_is_no_products_witness :
  own_property "length" [("sku", VStr "sku1")] = VUndefined /\
  bridge_calls
    (events (init (Callback 0) (Callback 1) VUndefined (VObj [("sku", VStr "sku1")])
               InAppBilling)) =
    [ CordovaExec (Callback 0) (Callback 1) "InAppBillingPlugin" "init" [] ] /\
  events (getProductDetails (Callback 0) (Callback 1) (VObj [("sku", VStr "sku1")])
            InAppBilling) =
    events (log "getProductDetails called!" InAppBilling).
Proof.
  split; [ reflexivity | ].
  destruct (object_without_length_is_no_products (Callback 0) (Callback 1) VUndefined
              [("sku", VStr "sku1")] InAppBilling) as [ (_ & B & _) (_ & E) ].
  - reflexivity.
  - split; [ exact B | exact E ].
Defined.

(** X14: with the logger of the prototype, rejecting an array whose first
    element is not a string and that [JSON.stringify] returns a text for
    goes in this order: the first line of the operation, then the message
    as a console line, then the call of [fail] with that same message, and
    nothing else. *)
Theorem rejection_is_logged_then_reported (success fail : callback) (opts : value)
    (head : value) (rest : list value) (serialized : string) (this : instance) :
  log_replaced this = false ->
  typeof head <> "string" ->
  JSON.stringify (VArr (head :: rest)) = Normal (Some serialized) ->
  events (init success fail opts (VArr (head :: rest)) this) =
    [ ConsoleLog "InAppBilling[js]: setup ok";
      ConsoleLog ("InAppBilling[js]: " ++ "invalid productIds: " ++ serialized);
      Invoke fail (VStr ("invalid productIds: " ++ serialized)) ] /\
  events (getProductDetails success fail (VArr (head :: rest)) this) =
    [ ConsoleLog "InAppBilling[js]: getProductDetails called!";
      ConsoleLog ("InAppBilling[js]: " ++ "invalid productIds: " ++ serialized);
      Invoke fail (VStr ("invalid productIds: " ++ serialized)) ].
Proof.
  intros Hlog Hhead Hser.
  destruct head; try (exfalso; apply Hhead; reflexivity);
    run this; try discriminate Hlog; rewrite ?Hser; cbn; repeat (rewrite ?L; cbn);
    split; reflexivity.
Qed.

Lemma rejection_is_logged_then_reported_witness :
  log_replaced InAppBilling = false /\
  typeof VNull <> "string" /\
  JSON.stringify (VArr [VNull; VStr "sku1"]) =
    Normal (Some ("[null," ++ JSON.quote "sku1" ++ "]")) /\
  events (init (Callback 0) (Callback 1) VUndefined (VArr [VNull; VStr "sku1"])
            InAppBilling) =
    [ ConsoleLog "InAppBilling[js]: setup ok";
      ConsoleLog ("InAppBilling[js]: " ++ "invalid productIds: " ++
                  ("[null," ++ JSON.quote "sku1" ++ "]"));
      Invoke (Callback 1)
        (VStr ("invalid productIds: " ++ ("[null," ++ JSON.quote "sku1" ++ "]"))) ].
Proof.
  split; [ reflexivity | ].
  split; [ discriminate | ].
  split; [ reflexivity | ].
  apply (proj1 (rejection_is_logged_then_reported (Callback 0) (Callback 1) VUndefined
                  VNull [VStr "sku1"] ("[null," ++ JSON.quote "sku1" ++ "]") InAppBilling
                  eq_refl ltac:(discriminate) eq_refl)).
Defined.

(** X15: with the logger of the prototype, accepting an array that starts
    with a string and that [JSON.stringify] returns a text for goes in
    this order: the first line of the operation, then the line "load "
    with the JSON text of the array, then the bridge call. *)
Theorem acceptance_is_logged_then_forwarded (success fail : callback) (opts : value)
    (s : string) (rest : list value) (serialized : string) (this : instance) :
  log_replaced this = false ->
  JSON.stringify (VArr (VStr s :: rest)) = Normal (Some serialized) ->
  events (init success fail opts (VArr (VStr s :: rest)) this) =
    [ ConsoleLog "InAppBilling[js]: setup ok";
      ConsoleLog ("InAppBilling[js]: " ++ "load " ++ serialized);
      CordovaExec success fail "InAppBillingPlugin" "init" [VArr (VStr s :: rest)] ] /\
  events (getProductDetails success fail (VArr (VStr s :: rest)) this) =
    [ ConsoleLog "InAppBilling[js]: getProductDetails called!";
      ConsoleLog ("InAppBilling[js]: " ++ "load " ++ serialized);
      CordovaExec success fail "InAppBillingPlugin" "getProductDetails"
        [VArr (VStr s :: rest)] ].
Proof.
  intros Hlog Hser.
  run this; try discriminate Hlog; rewrite ?Hser; cbn; repeat (rewrite ?L; cbn);
    split; reflexivity.
Qed.

Lemma acceptance_is_logged_then_forwarded_witness :
  log_replaced InAppBilling = false /\
  JSON.stringify (VArr [VStr "sku1"; VNum 42]) =
    Normal (Some ("[" ++ JSON.quote "sku1" ++ ",42]")) /\
  events (getProductDetails (Callback 0) (Callback 1) (VArr [VStr "sku1"; VNum 42])
            InAppBilling) =
    [ ConsoleLog "InAppBilling[js]: getProductDetails called!";
      ConsoleLog ("InAppBilling[js]: " ++ "load " ++ ("[" ++ JSON.quote "sku1" ++ ",42]"));
      CordovaExec (Callback 0) (Callback 1) "InAppBillingPlugin" "getProductDetails"
        [VArr [VStr "sku1"; VNum 42]] ].
Proof.
  split; [ reflexivity | ].
  split; [ reflexivity | ].
  apply (proj2 (acceptance_is_logged_then_forwarded (Callback 0) (Callback 1) VUndefined
                  "sku1" [VNum 42] ("[" ++ JSON.quote "sku1" ++ ",42]") InAppBilling
                  eq_refl eq_refl)).
Defined.
